(** * The [bit import] command: a shallow embedding of
    [src/cli/commands/public-cmds/import-cmd.js]

    The command has two halves.  [action] validates the flag bag, builds the
    [EnvironmentOptions] and [ImportOptions] records and hands them to the
    import engine ([importAction]).  [report] turns the engine's result into
    the text printed on the terminal.

    JavaScript values are modelled as follows:
    - an optional flag ([tester?: boolean]) is an [option bool]; the
      destructuring default [= false] is [dflt];
    - a value that may be [undefined] is an [option];
    - [throw] is the [Threw] constructor of [Outcome];
    - the call of the engine is recorded in a log, so that "the engine was
      not called" is a statement about that log;
    - strings are [string], arrays are [list]. *)

From Stdlib Require Import Ascii.
From stdpp Require Import base option list strings gmap pretty.

(** ** Strings *)

(** The line feed, written ['\n'] in the source. *)
Definition nl : string := String "010"%char "".

(** [Array.prototype.join]. *)
Fixpoint join (sep : string) (l : list string) : string :=
  match l with
  | [] => ""
  | [x] => x
  | x :: l' => x +:+ sep +:+ join sep l'
  end.

(** [String.prototype.includes]: does [needle] occur in [hay]? *)
Fixpoint includes (needle hay : string) : bool :=
  if String.prefix needle hay then true
  else match hay with
       | "" => false
       | String _ hay' => includes needle hay'
       end.

(** [String.prototype.startsWith]. *)
Definition startsWith (prefix s : string) : bool := String.prefix prefix s.

(** JavaScript truthiness of a value that is a string or [undefined]. *)
Definition truthy (v : option string) : bool :=
  match v with
  | Some (String _ _) => true
  | _ => false
  end.

(** ** Errors and outcomes *)

(** The two error classes the command throws. *)
Inductive JsError : Type :=
  | GeneralError (message : string)
  | Error (message : string).

Definition message_of (e : JsError) : string :=
  match e with GeneralError m | Error m => m end.

(** A computation either returns a value or throws. *)
Inductive Outcome (A : Type) : Type :=
  | Returned (a : A)
  | Threw (e : JsError).
Arguments Returned {A} a.
Arguments Threw {A} e.

#[global] Instance Outcome_ret : MRet Outcome := fun _ a => Returned a.
#[global] Instance Outcome_bind : MBind Outcome := fun _ _ f m =>
  match m with
  | Returned a => f a
  | Threw e => Threw e
  end.

(** ** Identifiers and components *)

(** Modelled from the spec: the [BitId] class is not part of the command's
    file.  The data model gives an identifier a scope, a name and an optional
    version; its two renderings, [toString] and [toStringWithoutVersion],
    stay parameters of the development. *)
Record BitId : Type := {
  scope : string;
  name : string;
  version : option string
}.

Module Component.
Record t : Type := { id : BitId }.
End Component.

Module ComponentWithDependencies.
(** [ComponentWithDependencies] of the scope: a component with its resolved
    dependencies. *)
Record t : Type := {
  component : Component.t;
  dependencies : list Component.t;
  devDependencies : list Component.t
}.
End ComponentWithDependencies.

Module EnvDependency.
(** An entry of [envDependencies]; [report] reads its [component] field. *)
Record t : Type := { component : Component.t }.
End EnvDependency.

(** Modelled from the spec: the status of an [ImportDetails] record. *)
Inductive ImportStatus : Type := imported | up_to_date | conflicted.

Module ImportDetails.
(** Modelled from the spec: the [ImportDetails] type is declared by the
    engine.  The data model gives it an id, the resolved versions and a
    status; [report] reads the [id] only. *)
Record t : Type := {
  id : string;
  versions : list string;
  status : ImportStatus
}.
End ImportDetails.

(** A JavaScript object in key order, as the warning lists hold them
    (package name to version). *)
Definition JsObject : Type := list (string * string).

Module Warnings.
Record t : Type := {
  notInPackageJson : list JsObject;
  notInNodeModules : list JsObject;
  notInBoth : list JsObject
}.
End Warnings.

Module ImportResults.
(** What the engine resolves to, and what [report] receives. *)
Record t : Type := {
  dependencies : option (list ComponentWithDependencies.t);
  envDependencies : option (list EnvDependency.t);
  importDetails : list ImportDetails.t;
  warnings : option Warnings.t;
  displayDependencies : option bool
}.
End ImportResults.

(** [R.assoc('displayDependencies', v, importResults)]. *)
Definition assoc_displayDependencies (v : bool) (r : ImportResults.t)
  : ImportResults.t :=
  {| ImportResults.dependencies := ImportResults.dependencies r;
     ImportResults.envDependencies := ImportResults.envDependencies r;
     ImportResults.importDetails := ImportResults.importDetails r;
     ImportResults.warnings := ImportResults.warnings r;
     ImportResults.displayDependencies := Some v |}.

(** ** The command's options *)

Module Flags.
(** The flag bag of [action]; every flag may be absent. *)
Record t : Type := {
  tester : option bool;
  compiler : option bool;
  extension : option bool;
  path : option string;
  objects : option bool;
  write : option bool;
  displayDependencies : option bool;
  environment : option bool;
  override : option bool;
  verbose : option bool;
  ignoreDist : option bool;
  conf : option bool;
  skipNpmInstall : option bool;
  ignorePackageJson : option bool
}.

(** No flag given at all. *)
Definition none : t :=
  {| tester := None; compiler := None; extension := None; path := None;
     objects := None; write := None; displayDependencies := None;
     environment := None; override := None; verbose := None;
     ignoreDist := None; conf := None; skipNpmInstall := None;
     ignorePackageJson := None |}.
End Flags.

(** The destructuring default [flag = false]. *)
Definition dflt (flag : option bool) : bool := default false flag.

Module EnvironmentOptions.
Record t : Type := {
  tester : bool;
  compiler : bool;
  extension : bool
}.
End EnvironmentOptions.

Module ImportOptions.
Record t : Type := {
  ids : list string;
  verbose : bool;
  writeToPath : option string;
  objectsOnly : bool;
  writeToFs : bool;
  withEnvironments : bool;
  override : bool;
  writeDists : bool;
  writeBitJson : bool;
  installNpmPackages : bool;
  writePackageJson : bool
}.
End ImportOptions.

(** ** The engine and the command monad *)

(** One call of [importAction]. *)
Record EngineCall : Type := {
  environmentOptions : EnvironmentOptions.t;
  importOptions : ImportOptions.t;
  packageManagerArgs : list string
}.

(** A command computation: the engine calls it made, in order, and how it
    ended. *)
Definition Cmd (A : Type) : Type := list EngineCall * Outcome A.

#[global] Instance Cmd_ret : MRet Cmd := fun _ a => ([], Returned a).
#[global] Instance Cmd_bind : MBind Cmd := fun _ _ f m =>
  match m with
  | (calls, Returned a) => let (calls', r) := f a in (calls ++ calls', r)
  | (calls, Threw e) => (calls, Threw e)
  end.

Definition throw {A : Type} (e : JsError) : Cmd A := ([], Threw e).

(** [if (c) throw e]. *)
Definition throw_if (c : bool) (e : JsError) : Cmd unit :=
  if c then throw e else mret ().

Definition calls {A : Type} (c : Cmd A) : list EngineCall := c.1.
Definition outcome {A : Type} (c : Cmd A) : Outcome A := c.2.

(** [ids.length] in a condition: truthy when the array is not empty. *)
Definition nonempty {A : Type} (l : list A) : bool :=
  match l with [] => false | _ => true end.

Section Action.

(** The import engine, [importAction] of [api/consumer]: what its promise
    settles to for the given arguments. *)
Variable engine : EngineCall -> Outcome ImportResults.t.

Definition importAction (eo : EnvironmentOptions.t) (io : ImportOptions.t)
    (args : list string) : Cmd ImportResults.t :=
  let call := {| environmentOptions := eo; importOptions := io;
                 packageManagerArgs := args |} in
  ([call], engine call).

(** [Import.action]. *)
Definition action (ids : list string) (f : Flags.t)
    (packageManagerArgs : list string) : Cmd ImportResults.t :=
  let tester := dflt (Flags.tester f) in
  let compiler := dflt (Flags.compiler f) in
  let extension := dflt (Flags.extension f) in
  let path := Flags.path f in
  let objects := dflt (Flags.objects f) in
  let write := dflt (Flags.write f) in
  let displayDependencies := dflt (Flags.displayDependencies f) in
  let environment := dflt (Flags.environment f) in
  let override := dflt (Flags.override f) in
  let verbose := dflt (Flags.verbose f) in
  let ignoreDist := dflt (Flags.ignoreDist f) in
  let conf := dflt (Flags.conf f) in
  let skipNpmInstall := dflt (Flags.skipNpmInstall f) in
  let ignorePackageJson := dflt (Flags.ignorePackageJson f) in
  throw_if (tester && compiler)
    (GeneralError "you cant use tester and compiler flags combined");;
  throw_if (objects && write)
    (GeneralError "you cant use --objects and --write flags combined");;
  throw_if (nonempty ids && write)
    (GeneralError "you cant use --write flag when importing specific ids");;
  let environmentOptions :=
    {| EnvironmentOptions.tester := tester;
       EnvironmentOptions.compiler := compiler;
       EnvironmentOptions.extension := extension |} in
  let importOptions :=
    {| ImportOptions.ids := ids;
       ImportOptions.verbose := verbose;
       ImportOptions.writeToPath := path;
       ImportOptions.objectsOnly := objects;
       ImportOptions.writeToFs := write;
       ImportOptions.withEnvironments := environment;
       ImportOptions.override := override;
       ImportOptions.writeDists := negb ignoreDist;
       ImportOptions.writeBitJson := conf;
       ImportOptions.installNpmPackages := negb skipNpmInstall;
       ImportOptions.writePackageJson := negb ignorePackageJson |} in
  importResults ← importAction environmentOptions importOptions
                    packageManagerArgs;
  mret (assoc_displayDependencies displayDependencies importResults).

End Action.

(** ** The report *)

(** The styles of the [chalk] library that [report] uses.  What a style does
    to a string depends on the terminal; the development is parametric in
    it. *)
Class Chalk : Type := {
  green : string -> string;
  yellow : string -> string;
  red : string -> string;
  red_underline : string -> string;
  yellow_underline : string -> string
}.

(** A style never turns text into the empty string. *)
Definition keeps_text (style : string -> string) : Prop :=
  forall s, style s = "" -> s = "".

Class ChalkLaws (C : Chalk) : Prop := {
  green_keeps : keeps_text green;
  yellow_keeps : keeps_text yellow;
  red_keeps : keeps_text red;
  red_underline_keeps : keeps_text red_underline;
  yellow_underline_keeps : keeps_text yellow_underline
}.

(** [chalk] on a terminal without colour support returns its argument. *)
Definition plain_chalk : Chalk :=
  {| green := fun s => s; yellow := fun s => s; red := fun s => s;
     red_underline := fun s => s; yellow_underline := fun s => s |}.

(** [R.flatten] is unary: it flattens the array it is given and does not
    read a further argument of the call. *)
Definition R_flatten {A : Type} (lists unread : list (list A)) : list A :=
  concat lists.

(** [R.uniq]: the first occurrence of every element, in order. *)
Fixpoint uniq_from (seen : list string) (l : list string) : list string :=
  match l with
  | [] => []
  | x :: l' =>
      if bool_decide (x ∈ seen) then uniq_from seen l'
      else x :: uniq_from (x :: seen) l'
  end.
Definition R_uniq (l : list string) : list string := uniq_from [] l.

(** [`${R.keys(obj)[0]}`] and [`${R.values(obj)[0]}`]: the first key (value)
    of the object, or the text [undefined] when it has none. *)
Definition first_key (obj : JsObject) : string :=
  match obj with [] => "undefined" | (k, _) :: _ => k end.
Definition first_value (obj : JsObject) : string :=
  match obj with [] => "undefined" | (_, v) :: _ => v end.

Definition logObject (obj : JsObject) : string :=
  "> " +:+ first_key obj +:+ ": " +:+ first_value obj.

(** The text of a value known to be a string. *)
Definition text (v : option string) : string := default "" v.

Section Report.

Context {chalk : Chalk}.

(** The two renderings of an identifier ([BitId.toString] and
    [BitId.toStringWithoutVersion]). *)
Variable toString : BitId -> string.
Variable toStringWithoutVersion : BitId -> string.

(** The formatters of [chalk-box] and [immutableUnshift] of [utils]. *)
Variable formatPlainComponentItem : Component.t -> string.
Variable formatPlainComponentItemWithVersions :
  Component.t -> ImportDetails.t -> string.
Variable immutableUnshift : list string -> string -> list string.

Definition components (dependencies : list ComponentWithDependencies.t)
  : list Component.t :=
  map ComponentWithDependencies.component dependencies.

Definition peerDependencies (dependencies : list ComponentWithDependencies.t)
  : list Component.t :=
  R_flatten (map ComponentWithDependencies.dependencies dependencies)
            (map ComponentWithDependencies.devDependencies dependencies).

Definition title (components : list Component.t) : string :=
  if length components =? 1 then "successfully imported one component"
  else "successfully imported " +:+ pretty (length components)
       +:+ " components".

(** [importDetails.find(c => c.id === component.id.toStringWithoutVersion())]. *)
Definition find_details (importDetails : list ImportDetails.t)
    (component : Component.t) : option ImportDetails.t :=
  find (fun c => String.eqb (ImportDetails.id c)
                   (toStringWithoutVersion (Component.id component)))
       importDetails.

(** The callback of [components.map]. *)
Definition componentItem (importDetails : list ImportDetails.t)
    (component : Component.t) : Outcome string :=
  match find_details importDetails component with
  | None =>
      Threw (Error ("missing details of component "
                    +:+ toString (Component.id component)))
  | Some details =>
      Returned (formatPlainComponentItemWithVersions component details)
  end.

Definition componentDependencies (importDetails : list ImportDetails.t)
    (components : list Component.t) : Outcome (list string) :=
  mapM (componentItem importDetails) components.

Definition componentDependenciesOutput (components : list Component.t)
    (componentDependencies : list string) : string :=
  join nl ([green (title components)] ++ componentDependencies).

Definition peerDependenciesOutput (components peerDependencies : list Component.t)
    (displayDependencies : option bool) : string :=
  if nonempty peerDependencies && dflt displayDependencies
  then join nl
         (immutableUnshift
            (R_uniq (map formatPlainComponentItem peerDependencies))
            (green (nl +:+ nl +:+ "successfully imported "
                    +:+ pretty (length components)
                    +:+ " component dependencies")))
  else "".

(** The first [if] of [report]: [dependenciesOutput], left [undefined]
    when there are no dependencies. *)
Definition dependenciesOutput (r : ImportResults.t) : Outcome (option string) :=
  match ImportResults.dependencies r with
  | Some dependencies =>
      if nonempty dependencies then
        let components := components dependencies in
        let peerDependencies := peerDependencies dependencies in
        items ← componentDependencies (ImportResults.importDetails r) components;
        mret (Some (componentDependenciesOutput components items
                    +:+ peerDependenciesOutput components peerDependencies
                          (ImportResults.displayDependencies r)))
      else mret None
  | None => mret None
  end.

(** The second [if]: [envDependenciesOutput]. *)
Definition envDependenciesOutput (r : ImportResults.t) : option string :=
  match ImportResults.envDependencies r with
  | Some envDependencies =>
      if nonempty envDependencies then
        Some (join nl
                (immutableUnshift
                   (map (fun envDependency =>
                           formatPlainComponentItem
                             (EnvDependency.component envDependency))
                        envDependencies)
                   (green "the following component environments were installed")))
      else None
  | None => None
  end.

Definition getImportOutput (dependenciesOutput envDependenciesOutput : option string)
  : string :=
  if truthy dependenciesOutput && negb (truthy envDependenciesOutput)
  then text dependenciesOutput
  else if negb (truthy dependenciesOutput) && truthy envDependenciesOutput
  then text envDependenciesOutput
  else if truthy dependenciesOutput && truthy envDependenciesOutput
  then text dependenciesOutput +:+ nl +:+ nl +:+ text envDependenciesOutput
  else yellow "nothing to import".

Definition getWarningOutput (warnings : option Warnings.t) : string :=
  match warnings with
  | None => ""
  | Some warnings =>
      let output := nl in
      let output :=
        if nonempty (Warnings.notInBoth warnings) then
          (output
           +:+ red_underline
                 (nl +:+ "error - missing the following package dependencies. please install and add to package.json." +:+ nl))
          +:+ red (join nl (map logObject (Warnings.notInBoth warnings)) +:+ nl)
        else output in
      let output :=
        if nonempty (Warnings.notInPackageJson warnings) then
          (output
           +:+ yellow_underline
                 (nl +:+ "warning - add the following packages to package.json" +:+ nl))
          +:+ yellow (join nl (map logObject (Warnings.notInPackageJson warnings)) +:+ nl)
        else output in
      let output :=
        if nonempty (Warnings.notInNodeModules warnings) then
          (output
           +:+ yellow_underline
                 (nl +:+ "warning - following packages are not installed. please install them." +:+ nl))
          +:+ yellow (join nl (map logObject (Warnings.notInNodeModules warnings)) +:+ nl)
        else output in
      if String.eqb output nl then "" else output
  end.

(** [Import.report]. *)
Definition report (r : ImportResults.t) : Outcome string :=
  dependenciesOutput ← dependenciesOutput r;
  mret (getImportOutput dependenciesOutput (envDependenciesOutput r)
        +:+ getWarningOutput (ImportResults.warnings r)).

End Report.

(** ** The conflict gate of the engine *)

(** The engine that [importAction] runs lives outside the command's file;
    the end-to-end test of the command ([bit import command with no ids])
    observes it through the text of the error it throws.  The part the test
    exercises is modelled here. *)

#[global] Instance BitId_eq_dec : EqDecision BitId.
Proof. solve_decision. Defined.

#[global] Instance BitId_countable : Countable BitId.
Proof.
  refine (inj_countable' (fun b => (scope b, name b, version b))
            (fun t => {| scope := t.1.1; name := t.1.2; version := t.2 |}) _).
  by intros [].
Defined.

Module ComponentObject.
(** Modelled from the spec: a fetched component object (data model: its
    identifier and the identifiers it declares as dependencies). *)
Record t : Type := {
  identifier : BitId;
  dependencies : list BitId;
  devDependencies : list BitId
}.
End ComponentObject.

Module WorkspaceEntry.
(** Modelled from the spec: the per-component record of the workspace map
    (identifier, filesystem path, installed version, content hash of the
    last synchronised state). *)
Record t : Type := {
  identifier : BitId;
  path : string;
  version : string;
  hash : string
}.
End WorkspaceEntry.

(** Modelled from the spec: why an identifier is in conflict. *)
Inductive ConflictReason : Type := local_modification | version_mismatch.

Module ConflictRecord.
(** Modelled from the spec: a conflict record (identifier and reason). *)
Record t : Type := {
  identifier : BitId;
  reason : ConflictReason
}.
End ConflictRecord.

Section ConflictGate.

Variable toString : BitId -> string.

(** The content hash found on disk at a path. *)
Variable disk : string -> string.

(** The Workspace Writer: what writing one accepted component does to the
    workspace map. *)
Variable write_component :
  ComponentObject.t -> gmap BitId WorkspaceEntry.t -> gmap BitId WorkspaceEntry.t.

(** Modelled from the spec: the Local Conflict Detector (section 4.4).
    For every identifier of the closure with a workspace entry, the
    recorded hash is compared with the hash on disk at the entry's path; a
    mismatch is recorded as a conflict. *)
Definition detect_conflicts (workspace : gmap BitId WorkspaceEntry.t)
    (closure : list ComponentObject.t) : list ConflictRecord.t :=
  omap (fun c =>
          entry ← workspace !! ComponentObject.identifier c;
          if decide (WorkspaceEntry.hash entry = disk (WorkspaceEntry.path entry))
          then None
          else Some {| ConflictRecord.identifier := ComponentObject.identifier c;
                       ConflictRecord.reason := local_modification |})
       closure.

(** Modelled from the spec: the aggregated error of the gate.  The test
    expects the text [unable to import] and every conflicting id. *)
Definition conflict_error (conflicts : list ConflictRecord.t) : JsError :=
  GeneralError
    ("unable to import the following components due to local changes: "
     +:+ join ", " (map (fun c => toString (ConflictRecord.identifier c)) conflicts)).

(** Modelled from the spec: the gate aborts the import when a conflict
    exists and override is not set, and accepts the closure otherwise. *)
Definition conflict_gate (override : bool)
    (workspace : gmap BitId WorkspaceEntry.t)
    (closure : list ComponentObject.t) : Outcome (list ComponentObject.t) :=
  let conflicts := detect_conflicts workspace closure in
  if nonempty conflicts && negb override then Threw (conflict_error conflicts)
  else Returned closure.

(** Modelled from the spec: the stages after resolution, gate then writer;
    the writer runs on the accepted closure only. *)
Definition import_batch (override : bool)
    (workspace : gmap BitId WorkspaceEntry.t)
    (closure : list ComponentObject.t) : Outcome (gmap BitId WorkspaceEntry.t) :=
  accepted ← conflict_gate override workspace closure;
  mret (foldl (fun w c => write_component c w) workspace accepted).

(** An identifier is conflicted when its workspace entry records a hash
    that differs from the one on disk. *)
Definition locally_modified (workspace : gmap BitId WorkspaceEntry.t)
    (id : BitId) : Prop :=
  exists entry, workspace !! id = Some entry /\
    WorkspaceEntry.hash entry <> disk (WorkspaceEntry.path entry).

End ConflictGate.

(** ** Sample data *)

Module Sample.

(** A rendering of identifiers: [scope/name@version]. *)
Definition toStringWithoutVersion (b : BitId) : string :=
  scope b +:+ "/" +:+ name b.
Definition toString (b : BitId) : string :=
  match version b with
  | Some v => toStringWithoutVersion b +:+ "@" +:+ v
  | None => toStringWithoutVersion b
  end.

Definition formatPlainComponentItem (c : Component.t) : string :=
  "- " +:+ toString (Component.id c).
Definition formatPlainComponentItemWithVersions (c : Component.t)
    (d : ImportDetails.t) : string :=
  "- " +:+ toString (Component.id c) +:+ " " +:+ join " " (ImportDetails.versions d).
Definition immutableUnshift (arr : list string) (entry : string) : list string :=
  entry :: arr.

Definition bar_foo : BitId :=
  {| scope := "bar"; name := "foo"; version := Some "0.0.1" |}.
Definition bar_foo2 : BitId :=
  {| scope := "bar"; name := "foo2"; version := Some "0.0.1" |}.
Definition utils_is_string : BitId :=
  {| scope := "utils"; name := "is-string"; version := Some "0.0.1" |}.

Definition component (b : BitId) : Component.t := {| Component.id := b |}.

Definition with_dependencies (b : BitId) (deps : list BitId)
  : ComponentWithDependencies.t :=
  {| ComponentWithDependencies.component := component b;
     ComponentWithDependencies.dependencies := map component deps;
     ComponentWithDependencies.devDependencies := [] |}.

Definition details (id : string) : ImportDetails.t :=
  {| ImportDetails.id := id; ImportDetails.versions := ["0.0.1"];
     ImportDetails.status := imported |}.

Definition results (deps : list ComponentWithDependencies.t)
    (details : list ImportDetails.t) (w : option Warnings.t)
    (display : option bool) : ImportResults.t :=
  {| ImportResults.dependencies := Some deps;
     ImportResults.envDependencies := None;
     ImportResults.importDetails := details;
     ImportResults.warnings := w;
     ImportResults.displayDependencies := display |}.

(** A result that resolved nothing. *)
Definition nothing : ImportResults.t :=
  {| ImportResults.dependencies := Some [];
     ImportResults.envDependencies := None;
     ImportResults.importDetails := [];
     ImportResults.warnings := None;
     ImportResults.displayDependencies := Some false |}.

(** An engine that resolves nothing, whatever it is asked. *)
Definition idle_engine (call : EngineCall) : Outcome ImportResults.t :=
  Returned nothing.

Definition flags (tester compiler objects write : bool) : Flags.t :=
  {| Flags.tester := Some tester; Flags.compiler := Some compiler;
     Flags.extension := None; Flags.path := None;
     Flags.objects := Some objects; Flags.write := Some write;
     Flags.displayDependencies := None; Flags.environment := None;
     Flags.override := None; Flags.verbose := None;
     Flags.ignoreDist := None; Flags.conf := None;
     Flags.skipNpmInstall := None; Flags.ignorePackageJson := None |}.

Definition missing_lodash : Warnings.t :=
  {| Warnings.notInPackageJson := [];
     Warnings.notInNodeModules := [];
     Warnings.notInBoth := [[("lodash", "4.17.4")]] |}.

(** A workspace in which [bar/foo] and [bar/foo2] were imported with hash
    [h1], and a disk on which both were edited since. *)
Definition entry (b : BitId) (p : string) : WorkspaceEntry.t :=
  {| WorkspaceEntry.identifier := b; WorkspaceEntry.path := p;
     WorkspaceEntry.version := "0.0.1"; WorkspaceEntry.hash := "h1" |}.
Definition workspace : gmap BitId WorkspaceEntry.t :=
  <[bar_foo := entry bar_foo "bar"]>
    (<[bar_foo2 := entry bar_foo2 "components/bar/foo2"]> ∅).
Definition edited_disk (p : string) : string := "h2".
Definition object (b : BitId) : ComponentObject.t :=
  {| ComponentObject.identifier := b; ComponentObject.dependencies := [];
     ComponentObject.devDependencies := [] |}.
Definition writer (c : ComponentObject.t) (w : gmap BitId WorkspaceEntry.t)
  : gmap BitId WorkspaceEntry.t :=
  <[ComponentObject.identifier c :=
      entry (ComponentObject.identifier c) "components"]> w.

(** The report on a terminal without colours, with the sample renderings. *)
Definition report : ImportResults.t -> Outcome string :=
  @report plain_chalk toString toStringWithoutVersion formatPlainComponentItem
    formatPlainComponentItemWithVersions immutableUnshift.

(** [bar/foo] imported together with its dependency [utils/is-string]. *)
Definition one_component (display : option bool) : ImportResults.t :=
  results [with_dependencies bar_foo [utils_is_string]] [details "bar/foo"]
          None display.

(** Two components resolved, and no detail record for either. *)
Definition no_details : ImportResults.t :=
  results [with_dependencies bar_foo []; with_dependencies utils_is_string []] []
          None None.

End Sample.

(** ** Vocabulary of the statements *)

(** A command run was rejected before the engine was called, with a
    configuration error whose text names every word of [named]. *)
Definition rejected_naming {A : Type} (run : Cmd A) (named : list string) : Prop :=
  exists msg, run = ([], Threw (GeneralError msg)) /\
    Forall (fun word => includes word msg = true) named.

(** The three configuration errors of [action]. *)
Definition tester_compiler_message : string :=
  "you cant use tester and compiler flags combined".
Definition objects_write_message : string :=
  "you cant use --objects and --write flags combined".
Definition ids_write_message : string :=
  "you cant use --write flag when importing specific ids".

(** The same result with its warnings replaced. *)
Definition with_warnings (w : option Warnings.t) (r : ImportResults.t)
  : ImportResults.t :=
  {| ImportResults.dependencies := ImportResults.dependencies r;
     ImportResults.envDependencies := ImportResults.envDependencies r;
     ImportResults.importDetails := ImportResults.importDetails r;
     ImportResults.warnings := w;
     ImportResults.displayDependencies := ImportResults.displayDependencies r |}.

(** The text of the error [report] throws for a component without details. *)
Definition missing_details_message (toString : BitId -> string)
    (component : Component.t) : string :=
  "missing details of component " +:+ toString (Component.id component).

(** The condition under which one of the three guards of [action] fires. *)
Definition contradictory (ids : list string) (f : Flags.t) : bool :=
  (dflt (Flags.tester f) && dflt (Flags.compiler f))
  || (dflt (Flags.objects f) && dflt (Flags.write f))
  || (nonempty ids && dflt (Flags.write f)).

(** The same result with the [devDependencies] of every entry emptied. *)
Definition clear_devDependencies (d : ComponentWithDependencies.t)
  : ComponentWithDependencies.t :=
  {| ComponentWithDependencies.component := ComponentWithDependencies.component d;
     ComponentWithDependencies.dependencies := ComponentWithDependencies.dependencies d;
     ComponentWithDependencies.devDependencies := [] |}.

Definition without_devDependencies (r : ImportResults.t) : ImportResults.t :=
  {| ImportResults.dependencies :=
       map clear_devDependencies <$> ImportResults.dependencies r;
     ImportResults.envDependencies := ImportResults.envDependencies r;
     ImportResults.importDetails := ImportResults.importDetails r;
     ImportResults.warnings := ImportResults.warnings r;
     ImportResults.displayDependencies := ImportResults.displayDependencies r |}.

(** * Properties *)

(** ** Strings *)

Lemma append_cons (a : ascii) (s t : string) :
  String a s +:+ t = String a (s +:+ t).
Proof. reflexivity. Qed.

Lemma append_nil_l (s : string) : "" +:+ s = s.
Proof. reflexivity. Qed.

Lemma append_assoc (s t u : string) : (s +:+ t) +:+ u = s +:+ (t +:+ u).
Proof. induction s as [|a s IH]; [done|]. by rewrite !append_cons, IH. Qed.

Lemma append_nil_inv (s t : string) : s +:+ t = "" -> s = "" /\ t = "".
Proof. destruct s; [done|]. by rewrite append_cons. Qed.

Lemma append_nil_r (s : string) : s +:+ "" = s.
Proof. induction s as [|a s IH]; [done|]. by rewrite append_cons, IH. Qed.

Lemma prefix_append (s t : string) : String.prefix s (s +:+ t) = true.
Proof.
  induction s as [|a s IH].
  - by destruct t.
  - change (String a s +:+ t) with (String a (s +:+ t)). simpl.
    by destruct (Ascii.ascii_dec a a).
Qed.

Lemma includes_unfold (needle hay : string) :
  includes needle hay =
  if String.prefix needle hay then true
  else match hay with
       | "" => false
       | String _ hay' => includes needle hay'
       end.
Proof. by destruct hay. Qed.

Lemma includes_here (needle post : string) : includes needle (needle +:+ post) = true.
Proof. by rewrite includes_unfold, (prefix_append needle post). Qed.

Lemma includes_append (needle pre post : string) :
  includes needle (pre +:+ needle +:+ post) = true.
Proof.
  induction pre as [|a pre IH].
  - rewrite append_nil_l. apply includes_here.
  - change (String a pre +:+ needle +:+ post)
      with (String a (pre +:+ needle +:+ post)).
    rewrite includes_unfold, IH. by destruct (String.prefix _ _).
Qed.

Lemma includes_suffix (needle pre : string) : includes needle (pre +:+ needle) = true.
Proof.
  pose proof (includes_append needle pre "") as H.
  by rewrite append_nil_r in H.
Qed.

Lemma join_cons (sep x y : string) (l : list string) :
  join sep (x :: y :: l) = x +:+ sep +:+ join sep (y :: l).
Proof. reflexivity. Qed.

Lemma join_elem (sep x : string) (l : list string) :
  x ∈ l -> exists pre post, join sep l = pre +:+ x +:+ post.
Proof.
  induction l as [|y l IH]; [by intros ?%elem_of_nil|].
  intros [->|Hin]%elem_of_cons.
  - destruct l as [|z l].
    + exists "", "". simpl. by rewrite append_nil_l, append_nil_r.
    + exists "", (sep +:+ join sep (z :: l)). by rewrite join_cons.
  - destruct (IH Hin) as (pre & post & Heq).
    destruct l as [|z l]; [by apply elem_of_nil in Hin|].
    exists (y +:+ sep +:+ pre), post.
    by rewrite join_cons, Heq, !append_assoc.
Qed.

Lemma includes_join (sep x pre : string) (l : list string) :
  x ∈ l -> includes x (pre +:+ join sep l) = true.
Proof.
  intros (p & q & ->)%(join_elem sep).
  rewrite <- append_assoc. apply includes_append.
Qed.

(** ** The action *)

Section ActionFacts.

Variable engine : EngineCall -> Outcome ImportResults.t.

(** The three guards of [action], in the order the source checks them. *)
Lemma action_guards (ids : list string) (f : Flags.t) (args : list string) :
  (dflt (Flags.tester f) && dflt (Flags.compiler f) = true ->
   action engine ids f args = ([], Threw (GeneralError tester_compiler_message)))
  /\ (dflt (Flags.tester f) && dflt (Flags.compiler f) = false ->
      dflt (Flags.objects f) && dflt (Flags.write f) = true ->
      action engine ids f args = ([], Threw (GeneralError objects_write_message)))
  /\ (dflt (Flags.tester f) && dflt (Flags.compiler f) = false ->
      dflt (Flags.objects f) && dflt (Flags.write f) = false ->
      nonempty ids && dflt (Flags.write f) = true ->
      action engine ids f args = ([], Threw (GeneralError ids_write_message))).
Proof.
  unfold action. repeat split.
  - by intros ->.
  - by intros -> ->.
  - by intros -> -> ->.
Qed.

(** When no guard fires the engine is called once, with the options built
    from the flags. *)
Lemma action_calls_engine (ids : list string) (f : Flags.t) (args : list string) :
  dflt (Flags.tester f) && dflt (Flags.compiler f) = false ->
  dflt (Flags.objects f) && dflt (Flags.write f) = false ->
  nonempty ids && dflt (Flags.write f) = false ->
  exists call,
    calls (action engine ids f args) = [call] /\
    ImportOptions.ids (importOptions call) = ids /\
    ImportOptions.objectsOnly (importOptions call) = dflt (Flags.objects f) /\
    ImportOptions.writeToFs (importOptions call) = dflt (Flags.write f) /\
    packageManagerArgs call = args.
Proof.
  intros Htc How Hiw. unfold action. rewrite Htc, How, Hiw. simpl.
  unfold importAction, calls.
  destruct (engine _); simpl; eexists; (split; [reflexivity|done]).
Qed.

(** C2: whenever the tester flag and the compiler flag are both true, the
    action throws the configuration error [GeneralError] about the two
    flags, and the engine ([importAction]) has not been called. *)
Theorem action_tester_compiler_rejected (ids : list string) (f : Flags.t)
    (args : list string) :
  Flags.tester f = Some true -> Flags.compiler f = Some true ->
  outcome (action engine ids f args)
    = Threw (GeneralError "you cant use tester and compiler flags combined")
  /\ calls (action engine ids f args) = [].
Proof.
  intros Ht Hc.
  destruct (action_guards ids f args) as (H & _).
  rewrite H; [done|]. by rewrite Ht, Hc.
Qed.

(** C3, as the code has it: an invocation that combines the write flag
    with the objects flag or with explicit ids is always rejected with a
    [GeneralError] before the engine is called.  The guards are checked in
    the order tester+compiler, objects+write, ids+write and the first one
    that fires decides the text: the error names [--objects] and
    [--write] when tester and compiler are not both set, and [--write] and
    the ids when in addition the objects flag is not set. *)
Theorem action_write_conflicts_rejected (ids : list string) (f : Flags.t)
    (args : list string) :
  dflt (Flags.write f) = true ->
  dflt (Flags.objects f) = true \/ ids <> [] ->
  (exists msg, action engine ids f args = ([], Threw (GeneralError msg)))
  /\ (dflt (Flags.tester f) && dflt (Flags.compiler f) = true ->
      rejected_naming (action engine ids f args) ["tester"; "compiler"])
  /\ (dflt (Flags.tester f) && dflt (Flags.compiler f) = false ->
      dflt (Flags.objects f) = true ->
      rejected_naming (action engine ids f args) ["--objects"; "--write"])
  /\ (dflt (Flags.tester f) && dflt (Flags.compiler f) = false ->
      dflt (Flags.objects f) = false ->
      rejected_naming (action engine ids f args) ["--write"; "ids"]).
Proof.
  intros Hw Hor.
  destruct (action_guards ids f args) as (Htc & How & Hiw).
  rewrite Hw, !andb_true_r in How, Hiw.
  assert (Hids : dflt (Flags.objects f) = false -> nonempty ids = true).
  { intros Ho. destruct Hor as [Ho'|Hne]; [congruence|]. by destruct ids. }
  assert (Htc' : dflt (Flags.tester f) && dflt (Flags.compiler f) = true ->
                 rejected_naming (action engine ids f args) ["tester"; "compiler"]).
  { intros E. eexists. split; [by apply Htc|]. repeat constructor. }
  assert (How' : dflt (Flags.tester f) && dflt (Flags.compiler f) = false ->
                 dflt (Flags.objects f) = true ->
                 rejected_naming (action engine ids f args) ["--objects"; "--write"]).
  { intros E Eo. eexists. split; [by apply How|]. repeat constructor. }
  assert (Hiw' : dflt (Flags.tester f) && dflt (Flags.compiler f) = false ->
                 dflt (Flags.objects f) = false ->
                 rejected_naming (action engine ids f args) ["--write"; "ids"]).
  { intros E Eo. eexists. split; [apply Hiw; [done|done|by rewrite Hids]|].
    repeat constructor. }
  split; [|done].
  destruct (dflt (Flags.tester f) && dflt (Flags.compiler f));
    [destruct Htc' as (msg & H & _); eauto|].
  destruct (dflt (Flags.objects f)).
  - destruct How' as (msg & H & _); eauto.
  - destruct Hiw' as (msg & H & _); eauto.
Qed.

(** C4, as the code has it: in import-all mode (no ids) without the write
    flag, every [ImportOptions] the action passes to the engine asks for no
    filesystem write ([writeToFs] is false) and carries the objects flag
    unchanged in [objectsOnly] (false unless [--objects] was given); the
    engine is called exactly once unless tester and compiler are both
    set. *)
Theorem import_all_passes_flags (f : Flags.t) (args : list string) :
  dflt (Flags.write f) = false ->
  Forall (fun call =>
            ImportOptions.ids (importOptions call) = [] /\
            ImportOptions.writeToFs (importOptions call) = false /\
            ImportOptions.objectsOnly (importOptions call) = dflt (Flags.objects f))
         (calls (action engine [] f args))
  /\ (dflt (Flags.tester f) && dflt (Flags.compiler f) = false ->
      exists call, calls (action engine [] f args) = [call]).
Proof.
  intros Hw.
  destruct (dflt (Flags.tester f) && dflt (Flags.compiler f)) eqn:E.
  - destruct (action_guards [] f args) as (Htc & _).
    rewrite (Htc E). split; [constructor|done].
  - destruct (action_calls_engine [] f args) as (call & Hc & Hi & Ho & Hf & _);
      [done|by rewrite Hw, andb_false_r|done|].
    rewrite Hc. split; [|by eauto].
    repeat constructor; congruence.
Qed.

End ActionFacts.

Lemma action_tester_compiler_rejected_witness :
  outcome (action Sample.idle_engine ["bar/foo"] (Sample.flags true true false false) [])
    = Threw (GeneralError "you cant use tester and compiler flags combined")
  /\ calls (action Sample.idle_engine ["bar/foo"] (Sample.flags true true false false) []) = [].
Proof.
  apply (action_tester_compiler_rejected Sample.idle_engine ["bar/foo"]
           (Sample.flags true true false false) []); reflexivity.
Defined.

Lemma action_write_conflicts_rejected_witness :
  rejected_naming
    (action Sample.idle_engine ["bar/foo"] (Sample.flags false false false true) [])
    ["--write"; "ids"].
Proof.
  apply (action_write_conflicts_rejected Sample.idle_engine ["bar/foo"]
           (Sample.flags false false false true) []);
    [reflexivity | right; discriminate | reflexivity | reflexivity].
Defined.

(** C3 as stated fails: with tester, compiler, objects and write all set, the
    action is rejected by the first guard, and its error names neither the
    objects flag nor the write flag. *)
Lemma objects_write_masked_by_tester_compiler :
  action Sample.idle_engine [] (Sample.flags true true true true) []
    = ([], Threw (GeneralError "you cant use tester and compiler flags combined"))
  /\ ~ rejected_naming
        (action Sample.idle_engine [] (Sample.flags true true true true) [])
        ["objects"; "write"].
Proof.
  split; [reflexivity|].
  intros (msg & Heq & Hnamed).
  injection Heq as <-.
  apply Forall_cons in Hnamed as [Hobjects _].
  vm_compute in Hobjects. discriminate.
Qed.

Lemma import_all_passes_flags_witness :
  Forall (fun call =>
            ImportOptions.ids (importOptions call) = [] /\
            ImportOptions.writeToFs (importOptions call) = false /\
            ImportOptions.objectsOnly (importOptions call) = false)
         (calls (action Sample.idle_engine [] Flags.none [])).
Proof.
  apply (import_all_passes_flags Sample.idle_engine Flags.none []). reflexivity.
Defined.

(** C4 as stated fails: [bit import] with no id and no flag passes
    [objectsOnly: false] to the engine. *)
Lemma import_all_default_not_objects_only :
  (fun call => ImportOptions.objectsOnly (importOptions call))
    <$> calls (action Sample.idle_engine [] Flags.none []) = [false].
Proof. reflexivity. Qed.

(** ** The report *)

Lemma truthy_nonempty (s : string) : s <> "" -> truthy (Some s) = true.
Proof. by destruct s. Qed.

Lemma startsWith_append (p rest : string) : startsWith p (p +:+ rest) = true.
Proof. apply prefix_append. Qed.

(** [Array.prototype.map] with a callback that may throw. *)
Section MapThrow.

Context {A B : Type} (f : A -> Outcome B).

Lemma mapM_Returned_length (l : list A) (k : list B) :
  mapM f l = Returned k -> length k = length l.
Proof.
  revert k. induction l as [|x l IH]; intros k; simpl.
  - by intros [= <-].
  - destruct (f x) as [y|e]; simpl; [|done].
    destruct (mapM f l) as [k'|e]; simpl; [|done].
    intros [= <-]. simpl. by rewrite (IH k').
Qed.

(** The map throws what the callback throws at the first element on which
    it throws. *)
Lemma mapM_first_throw (before after : list A) (x : A) (e : JsError) :
  Forall (fun a => exists b, f a = Returned b) before ->
  f x = Threw e ->
  mapM f (before ++ x :: after) = Threw e.
Proof.
  intros Hbefore Hx. induction Hbefore as [|a before [b Hb] _ IH]; simpl.
  - by rewrite Hx.
  - by rewrite Hb, IH.
Qed.

Lemma mapM_all_returned (l : list A) :
  Forall (fun a => exists b, f a = Returned b) l ->
  exists k, mapM f l = Returned k.
Proof.
  induction 1 as [|a l [b Hb] _ [k IH]]; simpl; [by eexists|].
  rewrite Hb, IH. by eexists.
Qed.

End MapThrow.

(** The first element of a list with a decidable property. *)
Lemma first_such {A : Type} (P : A -> Prop) `{!forall a, Decision (P a)}
    (l : list A) (x : A) :
  x ∈ l -> P x ->
  exists before x0 after,
    l = before ++ x0 :: after /\ P x0 /\ Forall (fun a => ~ P a) before.
Proof.
  induction l as [|y l IH]; [by intros ?%elem_of_nil|].
  intros Hin HP. destruct (decide (P y)) as [Hy|Hy].
  - by exists [], y, l.
  - apply elem_of_cons in Hin as [->|Hin]; [done|].
    destruct (IH Hin HP) as (before & x0 & after & -> & HP0 & Hbefore).
    exists (y :: before), x0, after. by repeat split; [|constructor].
Qed.

Section ReportFacts.

Context {chalk : Chalk}.
Variable toString : BitId -> string.
Variable toStringWithoutVersion : BitId -> string.
Variable formatPlainComponentItem : Component.t -> string.
Variable formatPlainComponentItemWithVersions :
  Component.t -> ImportDetails.t -> string.
Variable immutableUnshift : list string -> string -> list string.

Local Abbreviation report' :=
  (report toString toStringWithoutVersion formatPlainComponentItem
     formatPlainComponentItemWithVersions immutableUnshift).
Local Abbreviation dependenciesOutput' :=
  (dependenciesOutput toString toStringWithoutVersion formatPlainComponentItem
     formatPlainComponentItemWithVersions immutableUnshift).
Local Abbreviation envDependenciesOutput' :=
  (envDependenciesOutput formatPlainComponentItem immutableUnshift).
Local Abbreviation peerDependenciesOutput' :=
  (peerDependenciesOutput formatPlainComponentItem immutableUnshift).
Local Abbreviation componentDependencies' :=
  (componentDependencies toString toStringWithoutVersion
     formatPlainComponentItemWithVersions).
Local Abbreviation componentItem' :=
  (componentItem toString toStringWithoutVersion
     formatPlainComponentItemWithVersions).
Local Abbreviation find_details' := (find_details toStringWithoutVersion).

(** [report] in terms of its three parts. *)
Lemma report_unfold (r : ImportResults.t) :
  report' r =
  match dependenciesOutput' r with
  | Returned out =>
      Returned (getImportOutput out (envDependenciesOutput' r)
                +:+ getWarningOutput (ImportResults.warnings r))
  | Threw e => Threw e
  end.
Proof. reflexivity. Qed.

Lemma dependenciesOutput_none (r : ImportResults.t) :
  default [] (ImportResults.dependencies r) = [] ->
  dependenciesOutput' r = Returned None.
Proof.
  unfold dependenciesOutput.
  by destruct (ImportResults.dependencies r) as [[|d deps]|].
Qed.

Lemma envDependenciesOutput_none (r : ImportResults.t) :
  default [] (ImportResults.envDependencies r) = [] ->
  envDependenciesOutput' r = None.
Proof.
  unfold envDependenciesOutput.
  by destruct (ImportResults.envDependencies r) as [[|d deps]|].
Qed.

Lemma dependenciesOutput_some (r : ImportResults.t)
    (deps : list ComponentWithDependencies.t) :
  ImportResults.dependencies r = Some deps -> deps <> [] ->
  dependenciesOutput' r =
  match componentDependencies' (ImportResults.importDetails r) (components deps) with
  | Returned items =>
      Returned (Some (componentDependenciesOutput (components deps) items
                      +:+ peerDependenciesOutput' (components deps)
                            (peerDependencies deps)
                            (ImportResults.displayDependencies r)))
  | Threw e => Threw e
  end.
Proof.
  intros Hdeps Hne. unfold dependenciesOutput. rewrite Hdeps.
  by destruct deps.
Qed.

(** C5: when the result holds no component dependencies and no environment
    dependencies, the report returns (it does not throw), and its import
    output is the text [nothing to import]; the warning section follows,
    and is empty when there are no warnings. *)
Theorem report_nothing_to_import (r : ImportResults.t) :
  default [] (ImportResults.dependencies r) = [] ->
  default [] (ImportResults.envDependencies r) = [] ->
  report' r = Returned (yellow "nothing to import"
                        +:+ getWarningOutput (ImportResults.warnings r))
  /\ (ImportResults.warnings r = None ->
      report' r = Returned (yellow "nothing to import")).
Proof.
  intros Hdeps Henv.
  assert (H : report' r = Returned (yellow "nothing to import"
                +:+ getWarningOutput (ImportResults.warnings r))).
  { rewrite report_unfold, (dependenciesOutput_none r Hdeps),
      (envDependenciesOutput_none r Henv). reflexivity. }
  split; [done|]. intros Hw. rewrite H, Hw. simpl.
  by rewrite append_nil_r.
Qed.

Lemma title_one (components : list Component.t) :
  length components = 1 -> title components = "successfully imported one component".
Proof. unfold title. by intros ->. Qed.

Lemma title_many (components : list Component.t) :
  1 < length components ->
  title components
  = "successfully imported " +:+ pretty (length components) +:+ " components".
Proof.
  unfold title. intros H.
  by destruct (Nat.eqb_spec (length components) 1); [lia|].
Qed.

(** With at least one component the dependencies output is a non-empty
    string that begins with the styled title. *)
Lemma componentDependenciesOutput_title (comps : list Component.t)
    (items : list string) (rest : string) :
  items <> [] ->
  exists tail,
    componentDependenciesOutput comps items +:+ rest
    = green (title comps) +:+ tail
    /\ componentDependenciesOutput comps items +:+ rest <> "".
Proof.
  intros Hne. unfold componentDependenciesOutput.
  destruct items as [|y items]; [done|].
  change ([green (title comps)] ++ y :: items)
    with (green (title comps) :: y :: items).
  rewrite join_cons. eexists. split; [by rewrite !append_assoc|].
  intros [H _]%append_nil_inv.
  apply append_nil_inv in H as [_ H].
  by apply append_nil_inv in H as [? _].
Qed.

(** C6: with exactly one imported component the title of the report is
    [successfully imported one component]; with n > 1 components it is
    [successfully imported n components] (n in decimal); whenever the
    report returns, its text begins with that title in green. *)
Theorem report_title (r : ImportResults.t)
    (deps : list ComponentWithDependencies.t) :
  ImportResults.dependencies r = Some deps ->
  (length deps = 1 ->
   title (components deps) = "successfully imported one component")
  /\ (1 < length deps ->
      title (components deps)
      = "successfully imported " +:+ pretty (length deps) +:+ " components")
  /\ (deps <> [] -> forall out, report' r = Returned out ->
      startsWith (green (title (components deps))) out = true).
Proof.
  intros Hdeps. repeat split.
  - intros H. apply title_one. unfold components. by rewrite length_map.
  - intros H. rewrite title_many; unfold components; rewrite length_map; done.
  - intros Hne out. rewrite report_unfold, (dependenciesOutput_some r deps Hdeps Hne).
    destruct (componentDependencies' _ _) as [items|e] eqn:Hitems; [|done].
    apply mapM_Returned_length in Hitems.
    assert (Hitems' : items <> []).
    { intros ->. unfold components in Hitems. rewrite length_map in Hitems.
      by destruct deps. }
    destruct (componentDependenciesOutput_title (components deps) items
                (peerDependenciesOutput' (components deps) (peerDependencies deps)
                   (ImportResults.displayDependencies r)) Hitems')
      as (tail & -> & Hnonempty).
    intros [= <-]. unfold getImportOutput.
    rewrite (truthy_nonempty _ Hnonempty). simpl.
    destruct (truthy (envDependenciesOutput' r)); simpl;
      rewrite !append_assoc; apply startsWith_append.
Qed.

Lemma componentItem_found (details : list ImportDetails.t) (c : Component.t) :
  is_Some (find_details' details c) -> exists item, componentItem' details c = Returned item.
Proof. intros [d Hd]. unfold componentItem. rewrite Hd. by eexists. Qed.

Lemma componentItem_missing (details : list ImportDetails.t) (c : Component.t) :
  find_details' details c = None ->
  componentItem' details c = Threw (Error (missing_details_message toString c)).
Proof. intros Hd. unfold componentItem. by rewrite Hd. Qed.

(** [report] throws for the first component without details. *)
Lemma report_first_missing (r : ImportResults.t)
    (deps : list ComponentWithDependencies.t)
    (before after : list Component.t) (c : Component.t) :
  ImportResults.dependencies r = Some deps ->
  components deps = before ++ c :: after ->
  Forall (fun c' => is_Some (find_details' (ImportResults.importDetails r) c')) before ->
  find_details' (ImportResults.importDetails r) c = None ->
  report' r = Threw (Error (missing_details_message toString c)).
Proof.
  intros Hdeps Hsplit Hbefore Hc.
  assert (Hne : deps <> []) by (intros ->; by destruct before).
  rewrite report_unfold, (dependenciesOutput_some r deps Hdeps Hne).
  unfold componentDependencies. rewrite Hsplit.
  rewrite (mapM_first_throw _ before after c
             (Error (missing_details_message toString c))); [done| |].
  - eapply Forall_impl; [exact Hbefore|]. intros c'. apply componentItem_found.
  - by apply componentItem_missing.
Qed.

(** C7, as the code has it: when a component of the dependency list has no
    matching [ImportDetails] record (matched by its id without version),
    the report throws and never returns.  The error is the one of the
    first such component in list order, and mentions that component's id;
    so a component without a record is named by the error whenever every
    component listed before it has one. *)
Theorem report_missing_details_fatal (r : ImportResults.t)
    (deps : list ComponentWithDependencies.t) (c : Component.t) :
  ImportResults.dependencies r = Some deps ->
  c ∈ components deps ->
  find_details' (ImportResults.importDetails r) c = None ->
  (exists c0,
      c0 ∈ components deps /\
      find_details' (ImportResults.importDetails r) c0 = None /\
      report' r = Threw (Error (missing_details_message toString c0)) /\
      includes (toString (Component.id c0))
               (missing_details_message toString c0) = true)
  /\ (forall before after,
        components deps = before ++ c :: after ->
        Forall (fun c' => is_Some (find_details' (ImportResults.importDetails r) c'))
               before ->
        report' r = Threw (Error (missing_details_message toString c))).
Proof.
  intros Hdeps Hin Hc. split.
  - destruct (first_such
                (fun c' => find_details' (ImportResults.importDetails r) c' = None)
                (components deps) c Hin Hc)
      as (before & c0 & after & Hsplit & Hc0 & Hbefore).
    exists c0. repeat split.
    + rewrite Hsplit. apply elem_of_app. right. apply elem_of_cons. by left.
    + done.
    + apply (report_first_missing r deps before after c0); [done..| |done].
      eapply Forall_impl; [exact Hbefore|]. intros c' Hc'. simpl in Hc'.
      by destruct (find_details' _ c'); [eexists|].
    + apply includes_suffix.
  - intros before after Hsplit Hbefore.
    by apply (report_first_missing r deps before after c).
Qed.

(** *** The warning section *)

Lemma nl_append_neq_nl (t : string) : t <> "" -> String.eqb (nl +:+ t) nl = false.
Proof. by destruct t. Qed.

Lemma styled_header_nonempty (style : string -> string) (header rest : string) :
  keeps_text style -> style (nl +:+ header) +:+ rest <> "".
Proof. intros Hstyle [H _]%append_nil_inv. by apply Hstyle in H. Qed.

(** A warning section appended to an output keeps what the output begins
    with. *)
Lemma section_keeps_prefix (p out a b : string) (c : bool) :
  (exists rest, out = p +:+ rest) ->
  exists rest, (if c then (out +:+ a) +:+ b else out) = p +:+ rest.
Proof.
  intros [rest ->]. destruct c; [|by eexists].
  eexists. by rewrite !append_assoc.
Qed.

(** An output that already holds more than the line feed keeps doing so. *)
Lemma section_keeps_grown (out a b : string) (c : bool) :
  (exists t, out = nl +:+ t /\ t <> "") ->
  exists t, (if c then (out +:+ a) +:+ b else out) = nl +:+ t /\ t <> "".
Proof.
  intros (t & -> & Ht). destruct c; [|by eexists].
  eexists. split; [by rewrite !append_assoc|].
  by intros [? _]%append_nil_inv.
Qed.

Lemma grown_not_nl (out : string) :
  (exists t, out = nl +:+ t /\ t <> "") ->
  (if String.eqb out nl then "" else out) = out /\ out <> "".
Proof. intros (t & -> & Ht). by rewrite (nl_append_neq_nl t Ht). Qed.

(** With a non-empty list the warning output is the full accumulated text:
    it is neither empty nor the lone line feed. *)
Lemma getWarningOutput_grown `{!ChalkLaws chalk} (w : Warnings.t) :
  Warnings.notInBoth w <> [] \/ Warnings.notInPackageJson w <> []
    \/ Warnings.notInNodeModules w <> [] ->
  exists t, getWarningOutput (Some w) = nl +:+ t /\ t <> "".
Proof.
  intros Hsome. unfold getWarningOutput. cbv zeta.
  match goal with |- context [String.eqb ?out nl] =>
    assert (Hout : exists t, out = nl +:+ t /\ t <> ""); [|
      destruct (grown_not_nl out Hout) as [-> _]; exact Hout] end.
  destruct (Warnings.notInBoth w) as [|o1 l1].
  - destruct (Warnings.notInPackageJson w) as [|o2 l2].
    + destruct (Warnings.notInNodeModules w) as [|o3 l3];
        [by destruct Hsome as [?|[?|?]]|].
      cbn [nonempty]. eexists. split; [by rewrite !append_assoc|].
      rewrite <- append_assoc. apply styled_header_nonempty, yellow_underline_keeps.
    + apply section_keeps_grown. cbn [nonempty].
      eexists. split; [by rewrite !append_assoc|].
      rewrite <- append_assoc. apply styled_header_nonempty, yellow_underline_keeps.
  - do 2 apply section_keeps_grown. cbn [nonempty].
    eexists. split; [by rewrite !append_assoc|].
    rewrite <- append_assoc. apply styled_header_nonempty, red_underline_keeps.
Qed.

(** When every component has its detail record the dependency part of the
    report does not throw. *)
Lemma dependenciesOutput_returns (r : ImportResults.t) :
  Forall (fun c => is_Some (find_details' (ImportResults.importDetails r) c))
         (components (default [] (ImportResults.dependencies r))) ->
  exists out, dependenciesOutput' r = Returned out.
Proof.
  intros Hall. unfold dependenciesOutput.
  destruct (ImportResults.dependencies r) as [[|d deps]|]; [by eexists| |by eexists].
  cbn [nonempty].
  destruct (mapM_all_returned (componentItem' (ImportResults.importDetails r))
              (components (d :: deps))) as [items Hitems].
  - eapply Forall_impl; [exact Hall|]. intros c. apply componentItem_found.
  - unfold componentDependencies. rewrite Hitems. by eexists.
Qed.

(** C8: the warnings never block the import.  Whether the report throws is
    decided without them, and it does not throw when every component has its
    detail record; when the import output renders to [out], the report
    returns [out] followed by the warning text.  A non-empty [notInBoth]
    list does not abort either: its entries open the warning text, in the
    red styles. *)
Theorem warnings_never_block (r : ImportResults.t) :
  (forall e, report' r = Threw e <-> report' (with_warnings None r) = Threw e)
  /\ (forall out, report' (with_warnings None r) = Returned out ->
      report' r = Returned (out +:+ getWarningOutput (ImportResults.warnings r)))
  /\ (Forall (fun c => is_Some (find_details' (ImportResults.importDetails r) c))
             (components (default [] (ImportResults.dependencies r))) ->
      exists out, report' r
                  = Returned (out +:+ getWarningOutput (ImportResults.warnings r)))
  /\ (ChalkLaws chalk ->
      forall w, ImportResults.warnings r = Some w -> Warnings.notInBoth w <> [] ->
      exists rest,
        getWarningOutput (ImportResults.warnings r)
        = (nl +:+ red_underline (nl +:+ "error - missing the following package dependencies. please install and add to package.json." +:+ nl)
              +:+ red (join nl (map logObject (Warnings.notInBoth w)) +:+ nl))
          +:+ rest).
Proof.
  assert (Hsame : dependenciesOutput' (with_warnings None r) = dependenciesOutput' r)
    by reflexivity.
  assert (Henv : envDependenciesOutput' (with_warnings None r) = envDependenciesOutput' r)
    by reflexivity.
  split; [|split; [|split]].
  - intros e. rewrite !report_unfold, Hsame.
    by destruct (dependenciesOutput' r).
  - intros out. rewrite !report_unfold, Hsame, Henv.
    destruct (dependenciesOutput' r); [|done].
    simpl. rewrite append_nil_r. by intros [= <-].
  - intros Hall. destruct (dependenciesOutput_returns r Hall) as [out Hout].
    rewrite report_unfold, Hout. by eexists.
  - intros Hlaws w -> Hne.
    destruct (getWarningOutput_grown w (or_introl Hne)) as (t & Ht & Hnonempty).
    revert Ht. unfold getWarningOutput. cbv zeta.
    match goal with |- context [String.eqb ?out nl] =>
      intros Hout;
      assert (Hgrown : exists t, out = nl +:+ t /\ t <> "") end.
    { match type of Hout with (if String.eqb ?out nl then _ else _) = _ =>
        destruct (String.eqb out nl) eqn:E end.
      - by destruct t.
      - by exists t. }
    destruct (grown_not_nl _ Hgrown) as [-> _].
    do 2 apply section_keeps_prefix.
    destruct (Warnings.notInBoth w) as [|o1 l1]; [done|].
    cbn [nonempty]. exists "". by rewrite append_nil_r, !append_assoc.
Qed.

(** C10: the warning section is the empty string exactly when the warnings
    object is absent or its three lists ([notInBoth], [notInPackageJson],
    [notInNodeModules]) are all empty: no lone line feed is emitted. *)
Theorem getWarningOutput_empty_iff `{!ChalkLaws chalk} (warnings : option Warnings.t) :
  getWarningOutput warnings = "" <->
  warnings = None \/
  exists w, warnings = Some w /\ Warnings.notInBoth w = []
    /\ Warnings.notInPackageJson w = [] /\ Warnings.notInNodeModules w = [].
Proof.
  split.
  - destruct warnings as [w|]; [|by left].
    intros Hempty. right. exists w. split; [done|].
    destruct (Warnings.notInBoth w) as [|o1 l1] eqn:E1;
      [destruct (Warnings.notInPackageJson w) as [|o2 l2] eqn:E2;
       [destruct (Warnings.notInNodeModules w) as [|o3 l3] eqn:E3; [done|]|]|];
      exfalso;
      (destruct (getWarningOutput_grown w) as (t & Ht & _);
       [rewrite ?E1, ?E2, ?E3; auto|by rewrite Hempty in Ht]).
  - intros [->|(w & -> & H1 & H2 & H3)]; [done|].
    unfold getWarningOutput. by rewrite H1, H2, H3.
Qed.

(** C9: the listing of the dependencies is part of the report only when
    the display-dependencies flag is set and the flattened dependency list
    is not empty; otherwise the dependencies output is the list of the
    components alone, also when dependencies exist. *)
Theorem peer_listing_only_when_displayed (r : ImportResults.t)
    (deps : list ComponentWithDependencies.t) (items : list string) :
  ImportResults.dependencies r = Some deps -> deps <> [] ->
  componentDependencies' (ImportResults.importDetails r) (components deps)
    = Returned items ->
  dependenciesOutput' r
    = Returned (Some (componentDependenciesOutput (components deps) items
                      +:+ peerDependenciesOutput' (components deps)
                            (peerDependencies deps)
                            (ImportResults.displayDependencies r)))
  /\ (peerDependenciesOutput' (components deps) (peerDependencies deps)
        (ImportResults.displayDependencies r) <> "" ->
      ImportResults.displayDependencies r = Some true
      /\ peerDependencies deps <> [])
  /\ (ImportResults.displayDependencies r <> Some true
        \/ peerDependencies deps = [] ->
      dependenciesOutput' r
        = Returned (Some (componentDependenciesOutput (components deps) items))
      /\ report' r
        = Returned (getImportOutput
                      (Some (componentDependenciesOutput (components deps) items))
                      (envDependenciesOutput' r)
                    +:+ getWarningOutput (ImportResults.warnings r)))
  /\ (ImportResults.displayDependencies r = Some true ->
      peerDependencies deps <> [] ->
      peerDependenciesOutput' (components deps) (peerDependencies deps)
        (ImportResults.displayDependencies r)
      = join nl
          (immutableUnshift
             (R_uniq (map formatPlainComponentItem (peerDependencies deps)))
             (green (nl +:+ nl +:+ "successfully imported "
                     +:+ pretty (length (components deps))
                     +:+ " component dependencies")))).
Proof.
  intros Hdeps Hne Hitems.
  pose proof (dependenciesOutput_some r deps Hdeps Hne) as Hout.
  rewrite Hitems in Hout.
  assert (Hoff : ImportResults.displayDependencies r <> Some true
                 \/ peerDependencies deps = [] ->
                 peerDependenciesOutput' (components deps) (peerDependencies deps)
                   (ImportResults.displayDependencies r) = "").
  { unfold peerDependenciesOutput. intros [Hflag| ->]; [|done].
    destruct (ImportResults.displayDependencies r) as [[]|]; [done|..];
      by rewrite andb_false_r. }
  split; [done|]. split; [|split].
  - intros Hlisting.
    destruct (ImportResults.displayDependencies r) as [[]|] eqn:Hflag;
      [|exfalso; apply Hlisting, Hoff; by left..].
    split; [done|]. intros Hnil. apply Hlisting, Hoff. by right.
  - intros Hcase. rewrite report_unfold, Hout, (Hoff Hcase), append_nil_r. done.
  - intros Hflag Hpeers. unfold peerDependenciesOutput. rewrite Hflag.
    by destruct (peerDependencies deps).
Qed.

End ReportFacts.

(** ** The conflict gate *)

Section ConflictFacts.

Variable toString : BitId -> string.
Variable disk : string -> string.
Variable write_component :
  ComponentObject.t -> gmap BitId WorkspaceEntry.t -> gmap BitId WorkspaceEntry.t.

(** The detector records exactly the locally modified identifiers of the
    closure. *)
Lemma detect_conflicts_spec (workspace : gmap BitId WorkspaceEntry.t)
    (closure : list ComponentObject.t) (id : BitId) :
  id ∈ map ConflictRecord.identifier (detect_conflicts disk workspace closure)
  <-> id ∈ map ComponentObject.identifier closure /\
      locally_modified disk workspace id.
Proof.
  unfold detect_conflicts, locally_modified.
  rewrite !list_elem_of_fmap. split.
  - intros (rec & -> & Hrec). apply list_elem_of_omap in Hrec as (c & Hc & Hsome).
    destruct (workspace !! ComponentObject.identifier c) as [entry|] eqn:Hentry;
      simpl in Hsome; [|done].
    case_decide; [done|]. injection Hsome as <-. simpl.
    split; [by exists c|by exists entry].
  - intros ((c & -> & Hc) & entry & Hentry & Hhash).
    eexists. split; [|apply list_elem_of_omap; exists c; split; [done|]].
    2: { rewrite Hentry. simpl. by rewrite decide_False. }
    done.
Qed.

(** C1: when an identifier of the batch is locally modified and override
    is false, the whole batch fails: the import throws one aggregated
    error, no component is written, and the text of the error contains
    the identifier of every locally modified component of the batch. *)
Theorem conflicts_reported_together (workspace : gmap BitId WorkspaceEntry.t)
    (closure : list ComponentObject.t) (c : ComponentObject.t) :
  c ∈ closure ->
  locally_modified disk workspace (ComponentObject.identifier c) ->
  exists text,
    import_batch toString disk write_component false workspace closure
      = Threw (GeneralError text)
    /\ startsWith "unable to import" text = true
    /\ forall c', c' ∈ closure ->
         locally_modified disk workspace (ComponentObject.identifier c') ->
         includes (toString (ComponentObject.identifier c')) text = true.
Proof.
  intros Hc Hmod.
  assert (Hall : forall c', c' ∈ closure ->
            locally_modified disk workspace (ComponentObject.identifier c') ->
            ComponentObject.identifier c'
              ∈ map ConflictRecord.identifier (detect_conflicts disk workspace closure)).
  { intros c' Hc' Hmod'. apply detect_conflicts_spec.
    split; [|done]. apply list_elem_of_fmap. by exists c'. }
  exists (message_of (conflict_error toString (detect_conflicts disk workspace closure))).
  split; [|split].
  - unfold import_batch, conflict_gate.
    destruct (detect_conflicts disk workspace closure) as [|rec recs] eqn:Hdetect.
    + specialize (Hall c Hc Hmod). by apply elem_of_nil in Hall.
    + reflexivity.
  - reflexivity.
  - intros c' Hc' Hmod'. apply includes_join.
    specialize (Hall c' Hc' Hmod').
    apply list_elem_of_fmap in Hall as (rec & -> & Hrec).
    apply list_elem_of_fmap. by exists rec.
Qed.

End ConflictFacts.

(** ** The theorems at the sample data *)

#[global] Instance plain_chalk_laws : ChalkLaws plain_chalk.
Proof. by split; intros s H. Qed.

Lemma conflicts_reported_together_witness :
  exists text,
    import_batch Sample.toString Sample.edited_disk Sample.writer false
      Sample.workspace [Sample.object Sample.bar_foo; Sample.object Sample.bar_foo2]
      = Threw (GeneralError text)
    /\ startsWith "unable to import" text = true
    /\ forall c', c' ∈ [Sample.object Sample.bar_foo; Sample.object Sample.bar_foo2] ->
         locally_modified Sample.edited_disk Sample.workspace
           (ComponentObject.identifier c') ->
         includes (Sample.toString (ComponentObject.identifier c')) text = true.
Proof.
  apply (conflicts_reported_together Sample.toString Sample.edited_disk Sample.writer
           Sample.workspace
           [Sample.object Sample.bar_foo; Sample.object Sample.bar_foo2]
           (Sample.object Sample.bar_foo)).
  - apply elem_of_cons. by left.
  - exists (Sample.entry Sample.bar_foo "bar"). split; [reflexivity|discriminate].
Defined.

Lemma report_nothing_to_import_witness :
  Sample.report Sample.nothing = Returned "nothing to import".
Proof.
  apply (report_nothing_to_import (chalk := plain_chalk) Sample.toString
           Sample.toStringWithoutVersion Sample.formatPlainComponentItem
           Sample.formatPlainComponentItemWithVersions Sample.immutableUnshift
           Sample.nothing); reflexivity.
Defined.

Lemma report_title_witness :
  title (components [Sample.with_dependencies Sample.bar_foo [Sample.utils_is_string]])
  = "successfully imported one component".
Proof.
  apply (report_title (chalk := plain_chalk) Sample.toString
           Sample.toStringWithoutVersion Sample.formatPlainComponentItem
           Sample.formatPlainComponentItemWithVersions Sample.immutableUnshift
           (Sample.one_component None)
           [Sample.with_dependencies Sample.bar_foo [Sample.utils_is_string]]);
    reflexivity.
Defined.

Lemma report_missing_details_fatal_witness :
  Sample.report Sample.no_details
  = Threw (Error "missing details of component bar/foo@0.0.1").
Proof.
  destruct (report_missing_details_fatal (chalk := plain_chalk) Sample.toString
              Sample.toStringWithoutVersion Sample.formatPlainComponentItem
              Sample.formatPlainComponentItemWithVersions Sample.immutableUnshift
              Sample.no_details
              [Sample.with_dependencies Sample.bar_foo [];
               Sample.with_dependencies Sample.utils_is_string []]
              (Sample.component Sample.bar_foo)) as [_ Hfirst];
    [reflexivity | apply list_elem_of_here | reflexivity |].
  apply (Hfirst [] [Sample.component Sample.utils_is_string]);
    [reflexivity | constructor].
Defined.

(** C7 as stated fails: [utils/is-string] has no detail record either, and
    the error the report throws does not mention it; the report stops at
    [bar/foo], the first component without a record. *)
Lemma second_missing_component_not_mentioned :
  Sample.component Sample.utils_is_string
    ∈ components (default [] (ImportResults.dependencies Sample.no_details))
  /\ find_details Sample.toStringWithoutVersion
       (ImportResults.importDetails Sample.no_details)
       (Sample.component Sample.utils_is_string) = None
  /\ Sample.report Sample.no_details
     = Threw (Error "missing details of component bar/foo@0.0.1")
  /\ includes (Sample.toString Sample.utils_is_string)
       "missing details of component bar/foo@0.0.1" = false.
Proof.
  split; [|by repeat split].
  apply elem_of_cons. right. apply elem_of_cons. by left.
Qed.

Lemma warnings_never_block_witness :
  Sample.report (with_warnings (Some Sample.missing_lodash) Sample.nothing)
  = Returned ("nothing to import"
              +:+ getWarningOutput (chalk := plain_chalk) (Some Sample.missing_lodash)).
Proof.
  apply (warnings_never_block (chalk := plain_chalk) Sample.toString
           Sample.toStringWithoutVersion Sample.formatPlainComponentItem
           Sample.formatPlainComponentItemWithVersions Sample.immutableUnshift
           (with_warnings (Some Sample.missing_lodash) Sample.nothing)).
  reflexivity.
Defined.

Lemma peer_listing_only_when_displayed_witness :
  peerDependencies [Sample.with_dependencies Sample.bar_foo [Sample.utils_is_string]]
    <> []
  /\ Sample.report (Sample.one_component (Some false))
     = Returned (join nl ["successfully imported one component";
                          "- bar/foo@0.0.1 0.0.1"]).
Proof.
  split; [discriminate|].
  apply (peer_listing_only_when_displayed (chalk := plain_chalk) Sample.toString
           Sample.toStringWithoutVersion Sample.formatPlainComponentItem
           Sample.formatPlainComponentItemWithVersions Sample.immutableUnshift
           (Sample.one_component (Some false))
           [Sample.with_dependencies Sample.bar_foo [Sample.utils_is_string]]
           ["- bar/foo@0.0.1 0.0.1"]);
    [reflexivity | discriminate | reflexivity | left; discriminate].
Defined.

Lemma getWarningOutput_empty_iff_witness :
  getWarningOutput (chalk := plain_chalk) None = "".
Proof.
  apply (getWarningOutput_empty_iff (chalk := plain_chalk) None). by left.
Defined.

(** * Further properties of the command *)

(** ** What the action sends to the engine *)

Section ActionEngine.

Variable engine : EngineCall -> Outcome ImportResults.t.

(** The two ways [action] can run. *)
Lemma action_runs (ids : list string) (f : Flags.t) (args : list string) :
  (contradictory ids f = true /\
   exists msg, action engine ids f args = ([], Threw (GeneralError msg)))
  \/ (contradictory ids f = false /\
      exists call,
        action engine ids f args
        = ([call],
           match engine call with
           | Returned res =>
               Returned (assoc_displayDependencies
                           (dflt (Flags.displayDependencies f)) res)
           | Threw e => Threw e
           end)
        /\ environmentOptions call
           = {| EnvironmentOptions.tester := dflt (Flags.tester f);
                EnvironmentOptions.compiler := dflt (Flags.compiler f);
                EnvironmentOptions.extension := dflt (Flags.extension f) |}
        /\ ImportOptions.ids (importOptions call) = ids
        /\ ImportOptions.objectsOnly (importOptions call) = dflt (Flags.objects f)
        /\ ImportOptions.writeToFs (importOptions call) = dflt (Flags.write f)
        /\ packageManagerArgs call = args).
Proof.
  unfold contradictory, action.
  destruct (dflt (Flags.tester f) && dflt (Flags.compiler f)) eqn:Etc;
    [left; split; [done|by eexists]|].
  destruct (dflt (Flags.objects f) && dflt (Flags.write f)) eqn:Eow;
    [left; split; [done|by eexists]|].
  destruct (nonempty ids && dflt (Flags.write f)) eqn:Eiw;
    [left; split; [done|by eexists]|].
  right. split; [done|]. unfold importAction. simpl.
  match goal with |- context [engine ?c] =>
    exists c; split; [by destruct (engine c)|done] end.
Qed.

(** X1: the engine is called at most once, and it is left uncalled exactly
    when the invocation is contradictory (tester with compiler, objects with
    write, or explicit ids with write); no other flag can stop the call. *)
Theorem engine_called_unless_contradictory (ids : list string) (f : Flags.t)
    (args : list string) :
  length (calls (action engine ids f args)) <= 1
  /\ (calls (action engine ids f args) = [] <-> contradictory ids f = true).
Proof.
  destruct (action_runs ids f args)
    as [(Hc & msg & ->)|(Hc & call & -> & _)]; simpl.
  - split; [lia|done].
  - split; [lia|]. split; [done|congruence].
Qed.

(** X2: whatever the flags, the options the engine receives are consistent:
    never tester together with compiler, never [objectsOnly] together with
    [writeToFs], and [writeToFs] only with an empty list of ids. *)
Theorem engine_options_consistent (ids : list string) (f : Flags.t)
    (args : list string) :
  Forall (fun call =>
            EnvironmentOptions.tester (environmentOptions call)
              && EnvironmentOptions.compiler (environmentOptions call) = false
            /\ ImportOptions.objectsOnly (importOptions call)
                 && ImportOptions.writeToFs (importOptions call) = false
            /\ (ImportOptions.writeToFs (importOptions call) = true ->
                ImportOptions.ids (importOptions call) = []))
         (calls (action engine ids f args)).
Proof.
  destruct (action_runs ids f args)
    as [(Hc & msg & ->)|(Hc & call & -> & Heo & Hids & Hobj & Hfs & _)];
    [constructor|].
  unfold contradictory in Hc.
  apply orb_false_elim in Hc as [Hc Hiw]. apply orb_false_elim in Hc as [Htc How].
  repeat constructor.
  - by rewrite Heo.
  - by rewrite Hobj, Hfs.
  - rewrite Hfs, Hids. intros Hw. rewrite Hw, andb_true_r in Hiw.
    by destruct ids.
Qed.

(** X3: an invocation that is not contradictory ends as the engine ends.  A
    rejection of the engine is thrown unchanged; a result of the engine is
    returned with its dependencies, environment dependencies, details and
    warnings untouched and [displayDependencies] set to the flag (false when
    the flag is absent), whatever the engine had put there. *)
Theorem action_passes_engine_outcome (ids : list string) (f : Flags.t)
    (args : list string) :
  contradictory ids f = false ->
  exists call,
    calls (action engine ids f args) = [call]
    /\ packageManagerArgs call = args
    /\ (forall e, engine call = Threw e ->
        outcome (action engine ids f args) = Threw e)
    /\ (forall res, engine call = Returned res ->
        exists res',
          outcome (action engine ids f args) = Returned res'
          /\ ImportResults.dependencies res' = ImportResults.dependencies res
          /\ ImportResults.envDependencies res' = ImportResults.envDependencies res
          /\ ImportResults.importDetails res' = ImportResults.importDetails res
          /\ ImportResults.warnings res' = ImportResults.warnings res
          /\ ImportResults.displayDependencies res'
             = Some (dflt (Flags.displayDependencies f))).
Proof.
  intros Hc.
  destruct (action_runs ids f args)
    as [(Hc' & _)|(_ & call & -> & _ & _ & _ & _ & Hargs)]; [congruence|].
  exists call. split; [done|]. split; [done|]. split.
  - by intros e ->.
  - intros res ->. by eexists.
Qed.

End ActionEngine.

Lemma action_passes_engine_outcome_witness :
  exists call,
    calls (action Sample.idle_engine [] Flags.none ["--save"]) = [call]
    /\ packageManagerArgs call = ["--save"].
Proof.
  destruct (action_passes_engine_outcome Sample.idle_engine [] Flags.none ["--save"])
    as (call & Hcalls & Hargs & _); [reflexivity|].
  by exists call.
Defined.

(** ** What the report prints *)




(** [importDetails.find] finds nothing exactly when no record has the id. *)
Lemma find_details_None (toStringWithoutVersion : BitId -> string)
    (details : list ImportDetails.t) (c : Component.t) :
  find_details toStringWithoutVersion details c = None <->
  forall d, d ∈ details ->
    ImportDetails.id d <> toStringWithoutVersion (Component.id c).
Proof.
  unfold find_details. induction details as [|d details IH]; simpl.
  - split; [by intros _ d ?%elem_of_nil|done].
  - destruct (String.eqb_spec (ImportDetails.id d)
                (toStringWithoutVersion (Component.id c))) as [Heq|Hne].
    + split; [done|]. intros H. exfalso. apply (H d); [by left|done].
    + rewrite IH. split.
      * intros H d' [->|Hin]%elem_of_cons; [done|by apply H].
      * intros H d' Hin. apply H. by right.
Qed.

Section ReportPrints.

Context {chalk : Chalk}.
Variable toString : BitId -> string.
Variable toStringWithoutVersion : BitId -> string.
Variable formatPlainComponentItem : Component.t -> string.
Variable formatPlainComponentItemWithVersions :
  Component.t -> ImportDetails.t -> string.
Variable immutableUnshift : list string -> string -> list string.

Local Abbreviation report' :=
  (report toString toStringWithoutVersion formatPlainComponentItem
     formatPlainComponentItemWithVersions immutableUnshift).
Local Abbreviation dependenciesOutput' :=
  (dependenciesOutput toString toStringWithoutVersion formatPlainComponentItem
     formatPlainComponentItemWithVersions immutableUnshift).
Local Abbreviation envDependenciesOutput' :=
  (envDependenciesOutput formatPlainComponentItem immutableUnshift).
Local Abbreviation peerDependenciesOutput' :=
  (peerDependenciesOutput formatPlainComponentItem immutableUnshift).
Local Abbreviation componentDependencies' :=
  (componentDependencies toString toStringWithoutVersion
     formatPlainComponentItemWithVersions).
Local Abbreviation find_details' := (find_details toStringWithoutVersion).


(** X5: the [devDependencies] of the imported components never reach the
    report: emptying them in every entry leaves the report as it is, also
    when display-dependencies is set. *)
Theorem devDependencies_not_reported (r : ImportResults.t) :
  report' (without_devDependencies r) = report' r.
Proof.
  assert (Hdeps : dependenciesOutput' (without_devDependencies r)
                  = dependenciesOutput' r).
  { unfold dependenciesOutput, without_devDependencies. simpl.
    destruct (ImportResults.dependencies r) as [deps|]; [|done]. simpl.
    assert (Hcomps : components (map clear_devDependencies deps) = components deps).
    { unfold components. rewrite map_map. by apply map_ext. }
    assert (Hpeers : peerDependencies (map clear_devDependencies deps)
                     = peerDependencies deps).
    { unfold peerDependencies, R_flatten. f_equal. rewrite map_map.
      by apply map_ext. }
    rewrite Hcomps, Hpeers. by destruct deps. }
  unfold report. by rewrite Hdeps.
Qed.

(** X6: the report throws exactly when some component of the dependency list
    has no detail record with its id (without version), and then the error
    is always the [missing details] error of such a component; the report
    throws nothing else. *)
Theorem report_throws_iff (r : ImportResults.t) :
  (forall e, report' r = Threw e ->
     exists c,
       c ∈ components (default [] (ImportResults.dependencies r))
       /\ (forall d, d ∈ ImportResults.importDetails r ->
            ImportDetails.id d <> toStringWithoutVersion (Component.id c))
       /\ e = Error (missing_details_message toString c))
  /\ ((exists c,
         c ∈ components (default [] (ImportResults.dependencies r))
         /\ forall d, d ∈ ImportResults.importDetails r ->
              ImportDetails.id d <> toStringWithoutVersion (Component.id c)) ->
      exists e, report' r = Threw e).
Proof.
  set (missing := fun c => find_details' (ImportResults.importDetails r) c = None).
  assert (Hthrow : forall c,
            c ∈ components (default [] (ImportResults.dependencies r)) ->
            missing c ->
            exists c0,
              c0 ∈ components (default [] (ImportResults.dependencies r))
              /\ missing c0
              /\ report' r = Threw (Error (missing_details_message toString c0))).
  { intros c Hin Hc.
    destruct (ImportResults.dependencies r) as [deps|] eqn:Hdeps;
      [|by apply elem_of_nil in Hin].
    simpl in Hin |- *.
    destruct (first_such missing (components deps) c Hin Hc)
      as (before & c0 & after & Hsplit & Hc0 & Hbefore).
    exists c0. split; [|split; [done|]].
    - rewrite Hsplit. apply elem_of_app. right. by left.
    - apply (report_first_missing toString toStringWithoutVersion
               formatPlainComponentItem formatPlainComponentItemWithVersions
               immutableUnshift r deps before after c0); [done..| |done].
      eapply Forall_impl; [exact Hbefore|]. intros c' Hc'. unfold missing in Hc'.
      by destruct (find_details' _ c'); [eexists|]. }
  split.
  - intros e He.
    destruct (decide (Exists missing
                (components (default [] (ImportResults.dependencies r)))))
      as [Hex|Hall].
    + apply Exists_exists in Hex as (c & Hin & Hc).
      destruct (Hthrow c Hin Hc) as (c0 & Hin0 & Hc0 & Hr).
      exists c0. split; [done|]. split; [by apply find_details_None|congruence].
    + apply not_Exists_Forall in Hall; [|intros c; apply _].
      destruct (dependenciesOutput_returns toString toStringWithoutVersion
                  formatPlainComponentItem formatPlainComponentItemWithVersions
                  immutableUnshift r) as [out Hout].
      { eapply Forall_impl; [exact Hall|]. intros c Hc. unfold missing in Hc.
        simpl in Hc. by destruct (find_details' _ c); [eexists|]. }
      unfold report in He. by rewrite Hout in He.
  - intros (c & Hin & Hc). apply find_details_None in Hc.
    destruct (Hthrow c Hin Hc) as (c0 & _ & _ & Hr). by eexists.
Qed.

(** X7: with environment dependencies (and [immutableUnshift] putting the
    entry in front of the array) the report never says [nothing to import]:
    alone, the environments are listed under their green header; together
    with components, the component output comes first and the environments
    follow after an empty line.  The warning section closes both. *)
Theorem report_environments (r : ImportResults.t)
    (envs : list EnvDependency.t) :
  (forall arr entry, immutableUnshift arr entry = entry :: arr) ->
  ImportResults.envDependencies r = Some envs -> envs <> [] ->
  (default [] (ImportResults.dependencies r) = [] ->
   report' r
   = Returned
       (join nl (green "the following component environments were installed"
                 :: map (fun e => formatPlainComponentItem (EnvDependency.component e))
                        envs)
        +:+ getWarningOutput (ImportResults.warnings r)))
  /\ (forall deps items,
        ImportResults.dependencies r = Some deps -> deps <> [] ->
        componentDependencies' (ImportResults.importDetails r) (components deps)
          = Returned items ->
        report' r
        = Returned
            (((componentDependenciesOutput (components deps) items
               +:+ peerDependenciesOutput' (components deps) (peerDependencies deps)
                     (ImportResults.displayDependencies r))
              +:+ nl +:+ nl
              +:+ join nl (green "the following component environments were installed"
                           :: map (fun e => formatPlainComponentItem
                                              (EnvDependency.component e)) envs))
             +:+ getWarningOutput (ImportResults.warnings r))).
Proof.
  intros Hunshift Henv Hne.
  assert (HE : envDependenciesOutput' r
               = Some (join nl (green "the following component environments were installed"
                                :: map (fun e => formatPlainComponentItem
                                                   (EnvDependency.component e)) envs))).
  { unfold envDependenciesOutput. rewrite Henv, Hunshift. by destruct envs. }
  assert (Htruthy : truthy (envDependenciesOutput' r) = true).
  { rewrite HE. apply truthy_nonempty. destruct envs as [|e envs]; [done|].
    simpl map. rewrite join_cons. intros [_ H]%append_nil_inv.
    by apply append_nil_inv in H as [? _]. }
  split.
  - intros Hdeps.
    rewrite (report_unfold toString toStringWithoutVersion formatPlainComponentItem
               formatPlainComponentItemWithVersions immutableUnshift),
      (dependenciesOutput_none toString toStringWithoutVersion formatPlainComponentItem
         formatPlainComponentItemWithVersions immutableUnshift r Hdeps).
    unfold getImportOutput. rewrite Htruthy. simpl. by rewrite HE.
  - intros deps items Hdeps Hdne Hitems.
    rewrite (report_unfold toString toStringWithoutVersion formatPlainComponentItem
               formatPlainComponentItemWithVersions immutableUnshift),
      (dependenciesOutput_some toString toStringWithoutVersion formatPlainComponentItem
         formatPlainComponentItemWithVersions immutableUnshift r deps Hdeps Hdne),
      Hitems.
    assert (Hitems' : items <> []).
    { apply mapM_Returned_length in Hitems. intros ->.
      unfold components in Hitems. rewrite length_map in Hitems. by destruct deps. }
    destruct (componentDependenciesOutput_title (components deps) items
                (peerDependenciesOutput' (components deps) (peerDependencies deps)
                   (ImportResults.displayDependencies r)) Hitems')
      as (tail & _ & Hnonempty).
    unfold getImportOutput. rewrite Htruthy, (truthy_nonempty _ Hnonempty). simpl.
    by rewrite HE.
Qed.

(** X8: the warning section is either empty or a line feed followed by more
    text, whatever the styles do: a lone line feed is never appended to the
    import output. *)
Theorem warning_output_never_lone_line_feed (warnings : option Warnings.t) :
  getWarningOutput warnings = ""
  \/ exists t, t <> "" /\ getWarningOutput warnings = nl +:+ t.
Proof.
  destruct warnings as [w|]; [|by left]. unfold getWarningOutput. cbv zeta.
  match goal with |- context [String.eqb ?out nl] =>
    assert (Hout : exists t, out = nl +:+ t);
      [|destruct (String.eqb_spec out nl) as [Heq|Hne]; [by left|right]] end.
  - do 3 apply section_keeps_prefix. exists "". by rewrite append_nil_r.
  - destruct Hout as [t Ht]. exists t. split; [|done].
    intros ->. rewrite append_nil_r in Ht. by apply Hne.
Qed.

End ReportPrints.

(** ** The action followed by the report *)

Section CommandRun.

Context {chalk : Chalk}.
Variable engine : EngineCall -> Outcome ImportResults.t.
Variable toString : BitId -> string.
Variable toStringWithoutVersion : BitId -> string.
Variable formatPlainComponentItem : Component.t -> string.
Variable formatPlainComponentItemWithVersions :
  Component.t -> ImportDetails.t -> string.
Variable immutableUnshift : list string -> string -> list string.

Local Abbreviation report' :=
  (report toString toStringWithoutVersion formatPlainComponentItem
     formatPlainComponentItemWithVersions immutableUnshift).
Local Abbreviation envDependenciesOutput' :=
  (envDependenciesOutput formatPlainComponentItem immutableUnshift).
Local Abbreviation componentDependencies' :=
  (componentDependencies toString toStringWithoutVersion
     formatPlainComponentItemWithVersions).

(** X9: when the invocation is not contradictory and the engine resolves
    neither components nor environments, the action returns and the report
    on what it returns is [nothing to import] followed by the engine's
    warnings. *)
Theorem import_nothing_end_to_end (ids : list string) (f : Flags.t)
    (args : list string) (res : ImportResults.t) :
  contradictory ids f = false ->
  (forall call, engine call = Returned res) ->
  default [] (ImportResults.dependencies res) = [] ->
  default [] (ImportResults.envDependencies res) = [] ->
  exists res',
    outcome (action engine ids f args) = Returned res'
    /\ report' res'
       = Returned (yellow "nothing to import"
                   +:+ getWarningOutput (ImportResults.warnings res)).
Proof.
  intros Hc Hengine Hdeps Henv.
  destruct (action_runs engine ids f args)
    as [(Hc' & _)|(_ & call & -> & _)]; [congruence|].
  rewrite Hengine. eexists. split; [reflexivity|].
  rewrite (report_unfold toString toStringWithoutVersion formatPlainComponentItem
             formatPlainComponentItemWithVersions immutableUnshift),
    (dependenciesOutput_none toString toStringWithoutVersion formatPlainComponentItem
       formatPlainComponentItemWithVersions immutableUnshift
       (assoc_displayDependencies (dflt (Flags.displayDependencies f)) res) Hdeps),
    (envDependenciesOutput_none formatPlainComponentItem immutableUnshift
       (assoc_displayDependencies (dflt (Flags.displayDependencies f)) res) Henv).
  reflexivity.
Qed.

(** X10: the flag of the command, not the engine, decides whether the
    dependencies are listed.  Without [--display-dependencies] the report on
    what the action returns lists the components alone, also when the
    engine's result carried [displayDependencies: true] and dependencies
    exist. *)
Theorem display_flag_decides_listing (ids : list string) (f : Flags.t)
    (args : list string) (res : ImportResults.t)
    (deps : list ComponentWithDependencies.t) (items : list string) :
  contradictory ids f = false ->
  (forall call, engine call = Returned res) ->
  dflt (Flags.displayDependencies f) = false ->
  ImportResults.dependencies res = Some deps -> deps <> [] ->
  componentDependencies' (ImportResults.importDetails res) (components deps)
    = Returned items ->
  exists res',
    outcome (action engine ids f args) = Returned res'
    /\ report' res'
       = Returned (getImportOutput
                     (Some (componentDependenciesOutput (components deps) items))
                     (envDependenciesOutput' res)
                   +:+ getWarningOutput (ImportResults.warnings res)).
Proof.
  intros Hc Hengine Hflag Hdeps Hne Hitems.
  destruct (action_runs engine ids f args)
    as [(Hc' & _)|(_ & call & -> & _)]; [congruence|].
  rewrite Hengine, Hflag. eexists. split; [reflexivity|].
  rewrite (report_unfold toString toStringWithoutVersion formatPlainComponentItem
             formatPlainComponentItemWithVersions immutableUnshift),
    (dependenciesOutput_some toString toStringWithoutVersion formatPlainComponentItem
       formatPlainComponentItemWithVersions immutableUnshift
       (assoc_displayDependencies false res) deps Hdeps Hne).
  simpl ImportResults.importDetails. rewrite Hitems.
  unfold peerDependenciesOutput. simpl ImportResults.displayDependencies.
  cbn [dflt default]. rewrite andb_false_r, append_nil_r. reflexivity.
Qed.

End CommandRun.

(** ** The further properties at the sample data *)

Lemma report_throws_iff_witness :
  exists e, Sample.report Sample.no_details = Threw e.
Proof.
  apply (report_throws_iff (chalk := plain_chalk) Sample.toString
           Sample.toStringWithoutVersion Sample.formatPlainComponentItem
           Sample.formatPlainComponentItemWithVersions Sample.immutableUnshift
           Sample.no_details).
  exists (Sample.component Sample.bar_foo). split.
  - apply list_elem_of_here.
  - intros d Hd. by apply elem_of_nil in Hd.
Defined.

Lemma report_environments_witness :
  Sample.report
    {| ImportResults.dependencies := None;
       ImportResults.envDependencies :=
         Some [{| EnvDependency.component := Sample.component Sample.utils_is_string |}];
       ImportResults.importDetails := [];
       ImportResults.warnings := None;
       ImportResults.displayDependencies := None |}
  = Returned (join nl ["the following component environments were installed";
                       "- utils/is-string@0.0.1"]).
Proof.
  destruct (report_environments (chalk := plain_chalk) Sample.toString
              Sample.toStringWithoutVersion Sample.formatPlainComponentItem
              Sample.formatPlainComponentItemWithVersions Sample.immutableUnshift
              {| ImportResults.dependencies := None;
                 ImportResults.envDependencies :=
                   Some [{| EnvDependency.component :=
                              Sample.component Sample.utils_is_string |}];
                 ImportResults.importDetails := [];
                 ImportResults.warnings := None;
                 ImportResults.displayDependencies := None |}
              [{| EnvDependency.component := Sample.component Sample.utils_is_string |}])
    as [Halone _]; [reflexivity | reflexivity | discriminate |].
  apply Halone. reflexivity.
Defined.

Lemma import_nothing_end_to_end_witness :
  exists res',
    outcome (action Sample.idle_engine [] Flags.none []) = Returned res'
    /\ Sample.report res' = Returned "nothing to import".
Proof.
  apply (import_nothing_end_to_end (chalk := plain_chalk) Sample.idle_engine
           Sample.toString Sample.toStringWithoutVersion
           Sample.formatPlainComponentItem
           Sample.formatPlainComponentItemWithVersions Sample.immutableUnshift
           [] Flags.none [] Sample.nothing); reflexivity.
Defined.

Lemma display_flag_decides_listing_witness :
  exists res',
    outcome (action (fun _ => Returned (Sample.one_component (Some true)))
               ["bar/foo"] Flags.none []) = Returned res'
    /\ Sample.report res'
       = Returned (join nl ["successfully imported one component";
                            "- bar/foo@0.0.1 0.0.1"]).
Proof.
  apply (display_flag_decides_listing (chalk := plain_chalk)
           (fun _ => Returned (Sample.one_component (Some true)))
           Sample.toString Sample.toStringWithoutVersion
           Sample.formatPlainComponentItem
           Sample.formatPlainComponentItemWithVersions Sample.immutableUnshift
           ["bar/foo"] Flags.none [] (Sample.one_component (Some true))
           [Sample.with_dependencies Sample.bar_foo [Sample.utils_is_string]]
           ["- bar/foo@0.0.1 0.0.1"]);
    [reflexivity | reflexivity | reflexivity | reflexivity | discriminate
    | reflexivity].
Defined.
